(** * Verification of the student-competence evaluation framework

    A shallow embedding of [evaluation-framework.py]: the AST-based analyzer
    ([BasicPythonAnalyzer]), the rule-based prompt generator
    ([RuleBasedPromptGenerator]) and the evaluator that composes them
    ([CompetenceEvaluator]), followed by the properties stated about them.

    Conventions of the embedding:
    - a Python [str] is a [string] whose characters are code points below 256;
    - a Python [float] that the program computes is the exact rational it
      rounds: every float here is [n / 10.0] or a mean of small integers,
      and is only compared with [0.5], [1.0] or another such quotient.
      Correctly rounded division is monotone, so the comparisons agree;
    - a Python call either returns a value or raises: [Exc]. *)

From Stdlib Require Import Ascii ZArith QArith Qminmax Lia.
From Stdlib Require Import Numbers.DecimalString Numbers.DecimalNat Numbers.DecimalFacts.
From stdpp Require Import base list sorting gmap strings.

#[local] Set Warnings "-clear-no-such-hyp".

(** ** Python values and exceptions *)

Inductive exception : Type :=
  | UnboundLocalError (name : string)
  | OtherError (descr : string).

(** The outcome of a call: the returned value, or the exception that left it. *)
Inductive Exc (A : Type) : Type :=
  | Returned (a : A)
  | Raised (e : exception).
Arguments Returned {A} a.
Arguments Raised {A} e.

#[global] Instance exc_ret : MRet Exc := λ A a, Returned a.

#[global] Instance exc_bind : MBind Exc := λ A B k m,
  match m with
  | Returned a => k a
  | Raised e => Raised e
  end.

(** ** Python [str] operations used by the program *)

(** [s.startswith(p)], the step of the substring search. *)
Fixpoint startswith (p s : string) : bool :=
  match p, s with
  | EmptyString, _ => true
  | String a p', String b s' => if Ascii.eqb a b then startswith p' s' else false
  | String _ _, EmptyString => false
  end.

(** [needle in hay] on strings. *)
Fixpoint str_in (needle hay : string) : bool :=
  startswith needle hay ||
  match hay with
  | EmptyString => false
  | String _ hay' => str_in needle hay'
  end.

(** [s.split(sep)] for a one-character separator: never the empty list. *)
Fixpoint split (sep : ascii) (s : string) : list string :=
  match s with
  | EmptyString => [EmptyString]
  | String c s' =>
      if Ascii.eqb c sep then EmptyString :: split sep s'
      else match split sep s' with
           | l :: ls => String c l :: ls
           | [] => [String c EmptyString]
           end
  end.

Definition newline : ascii := "010"%char.

(** [str(i)] for a non-negative integer. *)
Definition str_of_nat (n : nat) : string :=
  NilZero.string_of_uint (Nat.to_uint n).

(** Python's whitespace among the code points below 256, as [str.strip] sees it. *)
Definition isspace (c : ascii) : bool :=
  let n := nat_of_ascii c in
  ((9 <=? n) && (n <=? 13)) || ((28 <=? n) && (n <=? 32))
  || (n =? 133) || (n =? 160).

Fixpoint lstrip (s : string) : string :=
  match s with
  | EmptyString => EmptyString
  | String c s' => if isspace c then lstrip s' else s
  end.

Fixpoint rstrip (s : string) : string :=
  match s with
  | EmptyString => EmptyString
  | String c s' =>
      match rstrip s' with
      | EmptyString => if isspace c then EmptyString else String c EmptyString
      | r => String c r
      end
  end.

Definition strip (s : string) : string := rstrip (lstrip s).

(** *** [repr] of a string and [str] of a list of strings *)

Definition hex_digit (n : nat) : ascii :=
  if n <? 10 then ascii_of_nat (48 + n) else ascii_of_nat (87 + n).

Definition backslash : ascii := ascii_of_nat 92.
Definition squote : ascii := "'"%char.
Definition dquote : ascii := ascii_of_nat 34.

(** Printable code points below 256 ([str.isprintable]). *)
Definition isprintable (c : ascii) : bool :=
  let n := nat_of_ascii c in
  ((32 <=? n) && (n <=? 126)) || ((161 <=? n) && negb (n =? 173)).

Definition has_char (c : ascii) (s : string) : bool :=
  str_in (String c EmptyString) s.

(** The quote [repr] chooses: a double quote only when the string has a
    single quote and no double quote. *)
Definition repr_quote (s : string) : ascii :=
  if has_char squote s && negb (has_char dquote s) then dquote else squote.

Definition repr_char (quote c : ascii) : string :=
  let n := nat_of_ascii c in
  if Ascii.eqb c quote || Ascii.eqb c backslash then String backslash (String c EmptyString)
  else if n =? 9 then String backslash "t"
  else if n =? 10 then String backslash "n"
  else if n =? 13 then String backslash "r"
  else if isprintable c then String c EmptyString
  else String backslash
         (String "x" (String (hex_digit (n / 16)) (String (hex_digit (n mod 16)) EmptyString))).

Fixpoint repr_body (quote : ascii) (s : string) : string :=
  match s with
  | EmptyString => EmptyString
  | String c s' => repr_char quote c +:+ repr_body quote s'
  end.

Definition repr (s : string) : string :=
  let q := repr_quote s in
  String q (repr_body q s +:+ String q EmptyString).

Fixpoint join (sep : string) (l : list string) : string :=
  match l with
  | [] => EmptyString
  | [s] => s
  | s :: l' => s +:+ sep +:+ join sep l'
  end.

(** [str(l)] for a list of strings. *)
Definition str_list (l : list string) : string :=
  "[" +:+ join ", " (repr <$> l) +:+ "]".

(** ** The syntax tree of the [ast] module

    A node has a class and its child nodes in the order of
    [ast.iter_child_nodes].  The classes the program tests with [isinstance]
    are kept apart; every other class is [Other] with its name. *)

Inductive node_class : Type :=
  | Module_
  | FunctionDef (name : string)
  | AsyncFunctionDef (name : string)
  | For
  | AsyncFor
  | While
  | If
  | IfExp
  | Return
  | Other (cls : string).

#[global] Instance node_class_eq_dec : EqDecision node_class.
Proof. solve_decision. Defined.

#[warnings="-register-all"]
Inductive node : Type :=
  | Node (cls : node_class) (children : list node).

Definition node_cls (n : node) : node_class :=
  match n with Node c _ => c end.

Definition iter_child_nodes (n : node) : list node :=
  match n with Node _ cs => cs end.

Fixpoint node_count (n : node) : nat :=
  match n with
  | Node _ cs => S (list_sum (map node_count cs))
  end.

(** [ast.walk]: a queue starts with the node; each step pops the first node,
    appends its children to the queue and yields it.  [fuel] bounds the
    number of steps; [walk] gives as many steps as the tree has nodes. *)
Fixpoint walk_queue (fuel : nat) (todo : list node) : list node :=
  match fuel, todo with
  | S fuel', n :: rest => n :: walk_queue fuel' (rest ++ iter_child_nodes n)
  | _, _ => []
  end.

Definition walk (n : node) : list node := walk_queue (node_count n) [n].

(** What [ast.parse] does with a source text: a tree, a [SyntaxError] with its
    message, or another exception. *)
Inductive parse_outcome : Type :=
  | Parsed (tree : node)
  | SyntaxError (message : string)
  | ParseRaises (e : exception).

(** ** Data classes *)

Record CodeAnalysisResult : Type := {
  syntax_errors : list string;
  logical_issues : list string;
  misconceptions : list string;
  complexity_score : Q;
  confidence : Q
}.

Record GeneratedPrompt : Type := {
  text : string;
  category : string;
  difficulty_level : Z;
  learning_objective : string
}.

(** ** The two abstract base classes *)

Class CodeAnalyzer : Type := {
  analyze : string → Exc CodeAnalysisResult
}.

Class PromptGenerator : Type := {
  generate_prompts : string → CodeAnalysisResult → Exc (list GeneratedPrompt)
}.

(** [enumerate(l, start)] *)
Fixpoint enumerate {A} (l : list A) (start : nat) : list (nat * A) :=
  match l with
  | [] => []
  | x :: l' => (start, x) :: enumerate l' (S start)
  end.

(** ** [BasicPythonAnalyzer] *)

Section BasicPythonAnalyzer.

(** [ast.parse] belongs to the Python library, not to the program. *)
Variable ast_parse : string → parse_outcome.

Definition is_For_While_If (c : node_class) : bool :=
  match c with
  | For | While | If => true
  | _ => false
  end.

Definition is_FunctionDef (c : node_class) : bool :=
  match c with
  | FunctionDef _ => true
  | _ => false
  end.

Definition is_Return (c : node_class) : bool :=
  match c with
  | Return => true
  | _ => false
  end.

(** The body of the loop of [_calculate_complexity]. *)
Definition complexity_step (complexity : Z) (n : node) : Z :=
  if is_For_While_If (node_cls n) then (complexity + 1)%Z
  else if is_FunctionDef (node_cls n) then (complexity + 2)%Z
  else complexity.

Definition _calculate_complexity (tree : node) : Q :=
  let complexity := foldl complexity_step 0%Z (walk tree) in
  Qmin (inject_Z complexity / 10) 1.

Definition line_issue (i : nat) : string :=
  "Line " +:+ str_of_nat i +:+ ": Possible assignment in condition".

(** The body of the loop of [_check_syntax_issues]. *)
Definition syntax_issue_step (issues : list string) (il : nat * string) : list string :=
  let '(i, line) := il in
  if str_in "=" line && negb (str_in "==" line) && negb (str_in "!=" line) then
    if str_in "if " line then issues ++ [line_issue i] else issues
  else issues.

Definition _check_syntax_issues (code : string) : list string :=
  let lines := split newline code in
  foldl syntax_issue_step [] (enumerate lines 1).

Definition missing_return : string := "Function may be missing return statement".

(** The body of the loop of [_detect_common_misconceptions]. *)
Definition misconception_step (misconceptions : list string) (n : node) : list string :=
  match node_cls n with
  | FunctionDef name =>
      let has_return := existsb (λ m, is_Return (node_cls m)) (walk n) in
      if negb has_return && negb (String.eqb name "__init__")
      then misconceptions ++ [missing_return]
      else misconceptions
  | _ => misconceptions
  end.

Definition _detect_common_misconceptions (tree : node) (code : string) : list string :=
  foldl misconception_step [] (walk tree).

(** The local variables of [analyze]; [complexity] is bound only by the
    assignment inside the [try] block. *)
Record analyze_locals : Type := {
  l_syntax_errors : list string;
  l_logical_issues : list string;
  l_misconceptions : list string;
  l_complexity : option Q
}.

Definition analyze_try (code : string) (l : analyze_locals) : Exc analyze_locals :=
  match ast_parse code with
  | Parsed tree =>
      let complexity := _calculate_complexity tree in
      let syntax_errors := _check_syntax_issues code in
      let misconceptions := _detect_common_misconceptions tree code in
      Returned {| l_syntax_errors := syntax_errors;
                  l_logical_issues := l_logical_issues l;
                  l_misconceptions := misconceptions;
                  l_complexity := Some complexity |}
  | SyntaxError e =>
      Returned {| l_syntax_errors := l_syntax_errors l ++ ["Syntax error: " +:+ e];
                  l_logical_issues := l_logical_issues l;
                  l_misconceptions := l_misconceptions l;
                  l_complexity := l_complexity l |}
  | ParseRaises e => Raised e
  end.

(** Reading a local variable that no assignment has bound. *)
Definition read_local {A} (name : string) (v : option A) : Exc A :=
  match v with
  | Some a => Returned a
  | None => Raised (UnboundLocalError name)
  end.

Definition BasicPythonAnalyzer_analyze (code : string) : Exc CodeAnalysisResult :=
  let l0 := {| l_syntax_errors := []; l_logical_issues := [];
               l_misconceptions := []; l_complexity := None |} in
  l ← analyze_try code l0;
  complexity ← read_local "complexity" (l_complexity l);
  mret {| syntax_errors := l_syntax_errors l;
          logical_issues := l_logical_issues l;
          misconceptions := l_misconceptions l;
          complexity_score := complexity;
          confidence := 0.8 |}.

#[export] Instance BasicPythonAnalyzer : CodeAnalyzer :=
  {| analyze := BasicPythonAnalyzer_analyze |}.

End BasicPythonAnalyzer.

(** ** [RuleBasedPromptGenerator] *)

Definition syntax_prompt : GeneratedPrompt := {|
  text := "Look at your code structure. Can you identify any syntax issues? What might Python be expecting differently?";
  category := "debugging";
  difficulty_level := 2;
  learning_objective := "Syntax error identification and resolution"
|}.

Definition assignment_prompt : GeneratedPrompt := {|
  text := "In your conditional statement, consider the difference between assignment (=) and comparison (==). Which operation do you intend to perform?";
  category := "conceptual";
  difficulty_level := 3;
  learning_objective := "Understanding assignment vs equality operators"
|}.

Definition return_prompt : GeneratedPrompt := {|
  text := "Think about what your function should give back to the caller. What value or result should it return?";
  category := "conceptual";
  difficulty_level := 3;
  learning_objective := "Function return values and program flow"
|}.

Definition complexity_prompt : GeneratedPrompt := {|
  text := "Your solution shows good complexity. Can you explain the logic flow? How would you trace through it step by step?";
  category := "extension";
  difficulty_level := 4;
  learning_objective := "Algorithm analysis and explanation"
|}.

(** The truth value of a list in a condition. *)
Definition truthy {A} (l : list A) : bool :=
  match l with
  | [] => false
  | _ => true
  end.

(** [a > b] on the scores. *)
Definition Qgtb (a b : Q) : bool :=
  match (a ?= b)%Q with
  | Gt => true
  | _ => false
  end.

Definition RuleBasedPromptGenerator_generate_prompts
    (code : string) (analysis : CodeAnalysisResult) : Exc (list GeneratedPrompt) :=
  let prompts := [] in
  let prompts :=
    if truthy (syntax_errors analysis) then prompts ++ [syntax_prompt] else prompts in
  let prompts :=
    if str_in "assignment in condition" (str_list (syntax_errors analysis))
    then prompts ++ [assignment_prompt] else prompts in
  let prompts :=
    if str_in "missing return statement" (str_list (misconceptions analysis))
    then prompts ++ [return_prompt] else prompts in
  let prompts :=
    if Qgtb (complexity_score analysis) 0.5 then prompts ++ [complexity_prompt] else prompts in
  Returned prompts.

#[export] Instance RuleBasedPromptGenerator : PromptGenerator :=
  {| generate_prompts := RuleBasedPromptGenerator_generate_prompts |}.

(** ** [CompetenceEvaluator] *)

(** An entry of the [generated_prompts] list of the report. *)
Record prompt_entry : Type := {
  entry_text : string;
  entry_category : string;
  entry_difficulty : Z;
  entry_objective : string
}.

(** The [summary] of the report.  [list(set(...))] enumerates the distinct
    categories in an order Python does not fix: the model keeps the set. *)
Record report_summary : Type := {
  total_prompts : nat;
  categories : gset string;
  avg_difficulty : Q
}.

(** The dictionary [evaluate_student_code] returns; its [analysis] entry has
    the five fields of the analysis result. *)
Record evaluation_report : Type := {
  report_code : string;
  report_analysis : CodeAnalysisResult;
  generated_prompts : list prompt_entry;
  summary : report_summary
}.

(** The dictionary built from one prompt. *)
Definition entry_of (p : GeneratedPrompt) : prompt_entry := {|
  entry_text := text p;
  entry_category := category p;
  entry_difficulty := difficulty_level p;
  entry_objective := learning_objective p
|}.

(** [sum] over integers: from 0, adding from the left. *)
Definition sum_Z (l : list Z) : Z := foldl Z.add 0%Z l.

Section CompetenceEvaluator.

Context (analyzer : CodeAnalyzer) (prompt_generator : PromptGenerator).

Definition evaluate_student_code (code : string) : Exc evaluation_report :=
  analysis ← analyze code;
  prompts ← generate_prompts code analysis;
  mret {|
    report_code := code;
    report_analysis := {|
      syntax_errors := syntax_errors analysis;
      logical_issues := logical_issues analysis;
      misconceptions := misconceptions analysis;
      complexity_score := complexity_score analysis;
      confidence := confidence analysis |};
    generated_prompts := entry_of <$> prompts;
    summary := {|
      total_prompts := length prompts;
      categories := list_to_set (category <$> prompts);
      avg_difficulty :=
        if truthy prompts
        then inject_Z (sum_Z (difficulty_level <$> prompts))
             / inject_Z (Z.of_nat (length prompts))
        else 0 |}
  |}.

End CompetenceEvaluator.

(** ** [demonstrate_evaluation] *)

Definition quoted (s : string) : string := String dquote (s +:+ String dquote EmptyString).

Definition lines_text (l : list string) : string := join (String newline EmptyString) l.

(** The three literals of [sample_codes], with the line break after the
    opening quotes and the indentation before the closing ones. *)
Definition sample_check_number : string := lines_text [
  "";
  "def check_number(x):";
  "    if x = 5:";
  "        return " +:+ quoted "equal";
  "    else:";
  "        return " +:+ quoted "not equal";
  "        " ].

Definition sample_calculate_sum : string := lines_text [
  "";
  "def calculate_sum(numbers):";
  "    total = 0";
  "    for num in numbers:";
  "        total += num";
  "        " ].

Definition sample_fibonacci : string := lines_text [
  "";
  "def fibonacci(n):";
  "    if n <= 1:";
  "        return n";
  "    else:";
  "        return fibonacci(n-1) + fibonacci(n-2)";
  "        " ].

Definition sample_codes : list string :=
  [sample_check_number; sample_calculate_sum; sample_fibonacci].

(** The driver evaluates every stripped sample in turn; an exception of one
    evaluation is caught and reported, and the loop goes on.  The model keeps
    the outcome of each evaluation and leaves the printing out. *)
Definition demonstrate_evaluation (ast_parse : string → parse_outcome)
    : list (Exc evaluation_report) :=
  let analyzer := BasicPythonAnalyzer ast_parse in
  let prompt_gen := RuleBasedPromptGenerator in
  (λ code, evaluate_student_code analyzer prompt_gen (strip code)) <$> sample_codes.

(** *** The trees of the two samples that parse *)

Definition leaf (cls : string) : node := Node (Other cls) [].
Definition Name_ (ctx : string) : node := Node (Other "Name") [leaf ctx].
Definition arguments_1 : node := Node (Other "arguments") [leaf "arg"].
Definition BinOp_ (l op r : node) : node := Node (Other "BinOp") [l; op; r].
Definition Call_1 (arg : node) : node := Node (Other "Call") [Name_ "Load"; arg].

(** [ast.parse] of the stripped Fibonacci sample. *)
Definition fibonacci_tree : node :=
  Node Module_ [
    Node (FunctionDef "fibonacci") [
      arguments_1;
      Node If [
        Node (Other "Compare") [Name_ "Load"; leaf "LtE"; leaf "Constant"];
        Node Return [Name_ "Load"];
        Node Return [
          BinOp_ (Call_1 (BinOp_ (Name_ "Load") (leaf "Sub") (leaf "Constant")))
                 (leaf "Add")
                 (Call_1 (BinOp_ (Name_ "Load") (leaf "Sub") (leaf "Constant")))]]]].

(** [ast.parse] of the stripped [calculate_sum] sample. *)
Definition calculate_sum_tree : node :=
  Node Module_ [
    Node (FunctionDef "calculate_sum") [
      arguments_1;
      Node (Other "Assign") [Name_ "Store"; leaf "Constant"];
      Node For [
        Name_ "Store";
        Name_ "Load";
        Node (Other "AugAssign") [Name_ "Store"; leaf "Add"; Name_ "Load"]]]].

(** The parser on the three samples, as a table; a text outside the table
    is not modelled and answers with an error of the table's own. *)
Definition sample_parse (code : string) : parse_outcome :=
  if String.eqb code (strip sample_check_number) then
    SyntaxError "invalid syntax (<unknown>, line 2)"
  else if String.eqb code (strip sample_calculate_sum) then Parsed calculate_sum_tree
  else if String.eqb code (strip sample_fibonacci) then Parsed fibonacci_tree
  else ParseRaises (OtherError "source text outside the sample table").

(** ** The vocabulary of the specification

    Notions the statements below are phrased in.  They are defined on their
    own, by recursion on the data, and not through the loops of the program. *)

(** [needle] occurs as a substring of [hay]. *)
Definition occurs (needle hay : string) : Prop :=
  ∃ pre post, hay = pre +:+ needle +:+ post.

(** Every node of the tree: the node, then the nodes below each child. *)
Fixpoint nodes (n : node) : list node :=
  match n with
  | Node _ cs => n :: flat_map nodes cs
  end.

(** The nodes strictly below a node. *)
Definition descendants (n : node) : list node :=
  flat_map nodes (iter_child_nodes n).

Definition count_nodes (P : node_class → bool) (tree : node) : nat :=
  length (filter (λ n, P (node_cls n) = true) (nodes tree)).

Definition is_loop (c : node_class) : bool :=
  match c with For | While => true | _ => false end.

Definition is_conditional (c : node_class) : bool :=
  match c with If => true | _ => false end.

(** loops + conditionals + 2 x function definitions *)
Definition weighted_count (tree : node) : nat :=
  count_nodes is_loop tree + count_nodes is_conditional tree
  + 2 * count_nodes is_FunctionDef tree.

(** A function definition that is not the initializer and has no return
    statement among its descendants. *)
Definition lacks_return (n : node) : Prop :=
  ∃ name, node_cls n = FunctionDef name ∧ name ≠ "__init__"
          ∧ ∀ m, m ∈ descendants n → node_cls m ≠ Return.

#[global] Instance lacks_return_dec n : Decision (lacks_return n).
Proof.
  unfold lacks_return.
  destruct (node_cls n) as [|name| | | | | | | |] eqn:E;
    try (right; intros (? & ? & _); congruence).
  destruct (decide (name = "__init__")) as [->|Hn].
  { right. intros (? & [= <-] & ? & _). done. }
  destruct (decide (Forall (λ m, node_cls m ≠ Return) (descendants n))) as [Hf|Hf].
  - left. exists name. rewrite Forall_forall in Hf. auto.
  - right. intros (? & _ & _ & H). apply Hf, Forall_forall, H.
Defined.

(** The arithmetic mean of a list of integers. *)
Definition mean (l : list Z) : Q :=
  inject_Z (foldr Z.add 0%Z l) / inject_Z (Z.of_nat (length l)).

(** The four rules of the prompt generator, as conditions on the analysis. *)
Definition fires_syntax (a : CodeAnalysisResult) : Prop :=
  syntax_errors a ≠ [].
Definition fires_assignment (a : CodeAnalysisResult) : Prop :=
  occurs "assignment in condition" (str_list (syntax_errors a)).
Definition fires_return (a : CodeAnalysisResult) : Prop :=
  occurs "missing return statement" (str_list (misconceptions a)).
Definition fires_complexity (a : CodeAnalysisResult) : Prop :=
  (0.5 < complexity_score a)%Q.

(** The condition of the syntax-issue heuristic on one line. *)
Definition assignment_in_condition (line : string) : Prop :=
  occurs "=" line ∧ ¬ occurs "==" line ∧ ¬ occurs "!=" line ∧ occurs "if " line.

(** What one node adds to the complexity counter. *)
Definition node_weight (n : node) : nat :=
  if is_For_While_If (node_cls n) then 1
  else if is_FunctionDef (node_cls n) then 2 else 0.

(** The test of the syntax-issue loop on a numbered line. *)
Definition line_flagged (il : nat * string) : Prop :=
  (str_in "=" il.2 && negb (str_in "==" il.2) && negb (str_in "!=" il.2)
   && str_in "if " il.2) = true.

(** The prompts of the four rules, in the order of the rules. *)
Definition rule_table : list GeneratedPrompt :=
  [syntax_prompt; assignment_prompt; return_prompt; complexity_prompt].

(** What a rule appends: its prompt when its condition holds. *)
Definition when (b : bool) (p : GeneratedPrompt) : list GeneratedPrompt :=
  if b then [p] else [].

(** An analysis with one flagged line, as the Fibonacci sample gets. *)
Definition flagged_analysis : CodeAnalysisResult := {|
  syntax_errors := ["Line 2: Possible assignment in condition"];
  logical_issues := [];
  misconceptions := [];
  complexity_score := 0.3;
  confidence := 0.8
|}.

(** ** [setup.py]: the requirement list

    [[line.strip() for line in fh if line.strip() and not line.startswith("#")]]
    over the lines of the requirements file, which are the input here. *)

(** The truth value of a string in a condition. *)
Definition truthy_str (s : string) : bool :=
  match s with
  | EmptyString => false
  | String _ _ => true
  end.

Fixpoint requirements (lines : list string) : list string :=
  match lines with
  | [] => []
  | line :: rest =>
      if truthy_str (strip line) && negb (startswith "#" line)
      then strip line :: requirements rest
      else requirements rest
  end.

(** A line that gives a requirement: its stripped form is not empty and the
    line itself does not begin with [#]. *)
Definition gives_requirement (line : string) : Prop :=
  strip line ≠ EmptyString ∧ startswith "#" line = false.

#[global] Instance gives_requirement_dec line : Decision (gives_requirement line).
Proof. unfold gives_requirement. apply _. Defined.

(** ** More vocabulary *)

(** A string that does not begin with white space. *)
Definition head_not_space (s : string) : Prop :=
  match s with
  | EmptyString => True
  | String c _ => isspace c = false
  end.

(** A string without white space at either end. *)
Definition stripped (s : string) : Prop :=
  head_not_space s ∧ rstrip s = s.

(** Some line of the text meets the condition of the syntax-issue heuristic. *)
Definition has_flagged_line (code : string) : Prop :=
  ∃ n line, split newline code !! n = Some line ∧ assignment_in_condition line.

(** Some function of the tree lacks a return statement. *)
Definition has_function_without_return (tree : node) : Prop :=
  ∃ n, n ∈ nodes tree ∧ lacks_return n.

(** A parser that knows one text. *)
Definition one_text_parse (known : string) (tree : node) (code : string) : parse_outcome :=
  if String.eqb code known then Parsed tree
  else ParseRaises (OtherError "source text outside the table").

(** [ast.parse] of the text [x = 1]. *)
Definition assignment_tree : node :=
  Node Module_ [Node (Other "Assign") [Name_ "Store"; leaf "Constant"]].

(** ** The model on small inputs *)

Example split_trailing_newline :
  split newline (String "a" (String newline (String "b" (String newline EmptyString))))
  = ["a"; "b"; ""].
Proof. reflexivity. Qed.

Example str_list_empty : str_list [] = "[]".
Proof. reflexivity. Qed.

Example str_list_quotes :
  str_list ["a'b"; "c"] = String "[" (quoted "a'b" +:+ ", 'c']").
Proof. reflexivity. Qed.

Example walk_is_breadth_first :
  node_cls <$> walk (Node Module_ [Node If [Node Return []]; Node For []])
  = [Module_; If; For; Return].
Proof. reflexivity. Qed.

Example strip_first_sample :
  split newline (strip sample_check_number) !! 1 = Some "    if x = 5:".
Proof. reflexivity. Qed.

Example several_assignments_flagged :
  _check_syntax_issues "if f(a=1, b=2): pass"
  = ["Line 1: Possible assignment in condition"].
Proof. reflexivity. Qed.

(** ** Strings *)

Lemma append_cons a s t : String a s +:+ t = String a (s +:+ t).
Proof. reflexivity. Qed.

Lemma append_nil t : EmptyString +:+ t = t.
Proof. reflexivity. Qed.

Lemma startswith_spec p s : startswith p s = true ↔ ∃ post, s = p +:+ post.
Proof.
  revert s. induction p as [|a p IH]; intros s; simpl.
  - split; [eauto | done].
  - destruct s as [|b s].
    + split; [done | intros [? [=]]].
    + destruct (Ascii.eqb_spec a b) as [->|Hab].
      * rewrite IH. split; intros [post H]; exists post;
          rewrite append_cons in *; congruence.
      * split; [done | ]. intros [post H]. rewrite append_cons in H. congruence.
Qed.

Lemma str_in_occurs needle hay : str_in needle hay = true ↔ occurs needle hay.
Proof.
  unfold occurs. split.
  - induction hay as [|c hay IH]; simpl; rewrite orb_true_iff.
    + intros [H|[=]]. apply startswith_spec in H as [post ->]. by exists EmptyString, post.
    + intros [H|H].
      * apply startswith_spec in H as [post H]. by exists EmptyString, post.
      * destruct (IH H) as (pre & post & ->). by exists (String c pre), post.
  - intros (pre & post & ->). induction pre as [|c pre IH].
    + rewrite append_nil.
      assert (startswith needle (needle +:+ post) = true) as Hs
        by (apply startswith_spec; eauto).
      destruct (needle +:+ post); simpl; [by rewrite Hs | by rewrite Hs].
    + rewrite append_cons. simpl. by rewrite IH, orb_true_r.
Qed.

Lemma str_in_not_occurs needle hay : str_in needle hay = false ↔ ¬ occurs needle hay.
Proof. rewrite <- str_in_occurs. by destruct (str_in needle hay). Qed.

(** ** Trees: [ast.walk] visits exactly the nodes of the tree *)

Lemma node_count_pos n : 0 < node_count n.
Proof. destruct n; simpl; lia. Qed.

Lemma walk_queue_nodes fuel todo :
  list_sum (map node_count todo) ≤ fuel →
  walk_queue fuel todo ≡ₚ flat_map nodes todo.
Proof.
  revert todo. induction fuel as [|fuel IH]; intros [|[c cs] rest]; simpl; try done.
  - lia.
  - intros Hle. constructor. rewrite IH.
    + rewrite flat_map_app. apply Permutation_app_comm.
    + rewrite map_app, list_sum_app. lia.
Qed.

Lemma walk_nodes tree : walk tree ≡ₚ nodes tree.
Proof.
  unfold walk. rewrite walk_queue_nodes by (simpl; lia).
  simpl. by rewrite app_nil_r.
Qed.

Lemma nodes_descendants n : nodes n = n :: descendants n.
Proof. by destruct n. Qed.

Lemma count_walk P tree :
  length (filter (λ n, P (node_cls n) = true) (walk tree)) = count_nodes P tree.
Proof. unfold count_nodes. by rewrite walk_nodes. Qed.

(** ** The complexity loop *)

Lemma complexity_fold l z :
  foldl complexity_step z l = (z + Z.of_nat (list_sum (map node_weight l)))%Z.
Proof.
  revert z. induction l as [|n l IH]; intros z; simpl.
  - lia.
  - rewrite IH. unfold complexity_step, node_weight.
    destruct (node_cls n); simpl; lia.
Qed.

Lemma weight_sum_counts l :
  list_sum (map node_weight l)
  = length (filter (λ n, is_loop (node_cls n) = true) l)
    + length (filter (λ n, is_conditional (node_cls n) = true) l)
    + 2 * length (filter (λ n, is_FunctionDef (node_cls n) = true) l).
Proof.
  induction l as [|n l IH]; [done|].
  change (list_sum (map node_weight (n :: l)))
    with (node_weight n + list_sum (map node_weight l)).
  rewrite !filter_cons, IH. unfold node_weight.
  destruct (node_cls n); simpl; repeat case_decide; simpl; try done; lia.
Qed.

Lemma calculate_complexity_weighted tree :
  _calculate_complexity tree
  = Qmin (inject_Z (Z.of_nat (weighted_count tree)) / 10) 1.
Proof.
  unfold _calculate_complexity, weighted_count.
  rewrite complexity_fold, weight_sum_counts, !count_walk. done.
Qed.

Lemma tenth_le (a b : nat) :
  a ≤ b → (inject_Z (Z.of_nat a) / 10 <= inject_Z (Z.of_nat b) / 10)%Q.
Proof.
  intros H. unfold Qle, Qdiv, Qmult, Qinv, inject_Z. simpl. lia.
Qed.

Lemma tenth_nonneg (a : nat) : (0 <= inject_Z (Z.of_nat a) / 10)%Q.
Proof. unfold Qle, Qdiv, Qmult, Qinv, inject_Z. simpl. lia. Qed.

(** ** The misconception loop *)

Lemma existsb_Return_walk n :
  existsb (λ m, is_Return (node_cls m)) (walk n) = false
  ↔ ∀ m, m ∈ nodes n → node_cls m ≠ Return.
Proof.
  rewrite <- not_true_iff_false, existsb_exists. split.
  - intros H m Hm E. apply H. exists m. split.
    + apply list_elem_of_In. by rewrite walk_nodes.
    + by rewrite E.
  - intros H (m & Hm & E). apply (H m).
    + rewrite <- walk_nodes. by apply list_elem_of_In.
    + by destruct (node_cls m).
Qed.

Lemma misconception_step_spec acc n :
  misconception_step acc n
  = if decide (lacks_return n) then acc ++ [missing_return] else acc.
Proof.
  unfold misconception_step.
  destruct (decide (lacks_return n)) as [(name & E & Hn & Hd)|Hno].
  - rewrite E.
    replace (existsb _ (walk n)) with false.
    + apply String.eqb_neq in Hn. by rewrite Hn.
    + symmetry. apply existsb_Return_walk. intros m.
      rewrite nodes_descendants, elem_of_cons. intros [->|Hm]; [by rewrite E | auto].
  - destruct (node_cls n) as [|name| | | | | | | |] eqn:E; try done.
    destruct (existsb _ (walk n)) eqn:Hex; [done|].
    destruct (String.eqb_spec name "__init__") as [->|Hn]; [done|].
    exfalso. apply Hno. exists name. split; [done|split; [done|]].
    intros m Hm. apply (proj1 (existsb_Return_walk n) Hex).
    rewrite nodes_descendants. by apply elem_of_cons; right.
Qed.

Lemma misconception_fold l acc :
  foldl misconception_step acc l
  = acc ++ replicate (length (filter lacks_return l)) missing_return.
Proof.
  revert acc. induction l as [|n l IH]; intros acc; simpl.
  - by rewrite app_nil_r.
  - rewrite IH, misconception_step_spec, filter_cons.
    destruct (decide (lacks_return n)); simpl; [by rewrite <- app_assoc | done].
Qed.

Lemma detect_misconceptions_count tree code :
  _detect_common_misconceptions tree code
  = replicate (length (filter lacks_return (nodes tree))) missing_return.
Proof.
  unfold _detect_common_misconceptions.
  by rewrite misconception_fold, walk_nodes.
Qed.

(** ** The syntax-issue loop *)

Lemma line_flagged_spec i line :
  line_flagged (i, line) ↔ assignment_in_condition line.
Proof.
  unfold line_flagged, assignment_in_condition. simpl.
  rewrite !andb_true_iff, !negb_true_iff, !str_in_occurs, !str_in_not_occurs.
  tauto.
Qed.

Lemma syntax_issue_step_spec issues il :
  syntax_issue_step issues il
  = if decide (line_flagged il) then issues ++ [line_issue il.1] else issues.
Proof.
  unfold syntax_issue_step, line_flagged. destruct il as [i line]. simpl.
  destruct (str_in "=" line), (str_in "==" line), (str_in "!=" line),
    (str_in "if " line); simpl; try case_decide; done.
Qed.

Lemma syntax_issue_fold el issues :
  foldl syntax_issue_step issues el
  = issues ++ (line_issue <$> (filter line_flagged el).*1).
Proof.
  revert issues. induction el as [|il el IH]; intros issues; simpl.
  - by rewrite app_nil_r.
  - rewrite IH, syntax_issue_step_spec, filter_cons.
    destruct (decide (line_flagged il)); simpl; [by rewrite <- app_assoc | done].
Qed.

Lemma elem_of_enumerate {A} (l : list A) k i x :
  (i, x) ∈ enumerate l k ↔ k ≤ i ∧ l !! (i - k) = Some x.
Proof.
  revert k. induction l as [|y l IH]; intros k; simpl.
  - rewrite elem_of_nil. split; [done | by intros [_ ?]].
  - rewrite elem_of_cons, IH. split.
    + intros [[= -> ->]|[Hk Hl]].
      * by rewrite Nat.sub_diag.
      * split; [lia|]. by replace (i - k) with (S (i - S k)) by lia.
    + intros [Hk Hl]. destruct (decide (i = k)) as [->|Hne].
      * left. rewrite Nat.sub_diag in Hl. simpl in Hl. congruence.
      * right. split; [lia|].
        by replace (i - k) with (S (i - S k)) in Hl by lia.
Qed.

Lemma enumerate_filter_sorted {A} (P : nat * A → Prop) `{∀ x, Decision (P x)}
    (l : list A) k :
  StronglySorted lt (filter P (enumerate l k)).*1
  ∧ Forall (le k) (filter P (enumerate l k)).*1.
Proof.
  revert k. induction l as [|y l IH]; intros k; simpl.
  - split; constructor.
  - destruct (IH (S k)) as [Hs Hf]. rewrite filter_cons.
    assert (Forall (lt k) (filter P (enumerate l (S k))).*1) as Hlt
      by (eapply Forall_impl; [exact Hf | simpl; lia]).
    destruct (decide (P (k, y))); simpl.
    + split; constructor; try done.
      eapply Forall_impl; [exact Hlt | simpl; lia].
    + split; [done|]. eapply Forall_impl; [exact Hlt | simpl; lia].
Qed.

Lemma check_syntax_issues_lines code :
  ∃ ns, _check_syntax_issues code = line_issue <$> ns
        ∧ StronglySorted lt ns
        ∧ ∀ n, n ∈ ns ↔
            1 ≤ n ∧ ∃ line, split newline code !! (n - 1) = Some line
                            ∧ assignment_in_condition line.
Proof.
  unfold _check_syntax_issues. rewrite syntax_issue_fold. simpl.
  exists (filter line_flagged (enumerate (split newline code) 1)).*1.
  split; [done|]. split; [apply enumerate_filter_sorted|].
  intros n. rewrite list_elem_of_fmap. split.
  - intros ([i line] & -> & Hin). apply list_elem_of_filter in Hin as [Hf Hin].
    apply elem_of_enumerate in Hin as [Hi Hl]. simpl.
    split; [done|]. exists line. split; [done|]. by apply (line_flagged_spec i).
  - intros (Hn & line & Hl & Hf). exists (n, line). split; [done|].
    apply list_elem_of_filter. split; [by apply line_flagged_spec|].
    by apply elem_of_enumerate.
Qed.

(** ** [analyze] on the two outcomes of the parser *)

Lemma analyze_parsed ast_parse code tree :
  ast_parse code = Parsed tree →
  analyze (CodeAnalyzer := BasicPythonAnalyzer ast_parse) code
  = Returned {| syntax_errors := _check_syntax_issues code;
                logical_issues := [];
                misconceptions := _detect_common_misconceptions tree code;
                complexity_score := _calculate_complexity tree;
                confidence := 0.8 |}.
Proof.
  intros H. simpl. unfold BasicPythonAnalyzer_analyze, analyze_try. by rewrite H.
Qed.

Lemma analyze_syntax_error ast_parse code message :
  ast_parse code = SyntaxError message →
  analyze (CodeAnalyzer := BasicPythonAnalyzer ast_parse) code
  = Raised (UnboundLocalError "complexity").
Proof.
  intros H. simpl. unfold BasicPythonAnalyzer_analyze, analyze_try. by rewrite H.
Qed.

(** ** The rule table *)

Lemma rule_table_NoDup : NoDup rule_table.
Proof.
  unfold rule_table. repeat constructor; rewrite ?elem_of_cons, ?elem_of_nil;
    intros H; repeat destruct H as [H|H]; try done;
    first [ by apply (f_equal difficulty_level) in H
          | by apply (f_equal category) in H
          | apply (f_equal learning_objective) in H; vm_compute in H; congruence ].
Qed.

Lemma generate_prompts_when code a :
  generate_prompts (PromptGenerator := RuleBasedPromptGenerator) code a
  = Returned
      (when (truthy (syntax_errors a)) syntax_prompt
       ++ when (str_in "assignment in condition" (str_list (syntax_errors a)))
            assignment_prompt
       ++ when (str_in "missing return statement" (str_list (misconceptions a)))
            return_prompt
       ++ when (Qgtb (complexity_score a) 0.5) complexity_prompt).
Proof.
  cbn [generate_prompts RuleBasedPromptGenerator].
  unfold RuleBasedPromptGenerator_generate_prompts.
  by destruct (truthy _), (str_in _ (str_list (syntax_errors a))),
    (str_in _ (str_list (misconceptions a))), (Qgtb _ _).
Qed.

Lemma truthy_spec {A} (l : list A) : truthy l = true ↔ l ≠ [].
Proof. by destruct l. Qed.

Lemma Qgtb_spec a b : Qgtb a b = true ↔ (b < a)%Q.
Proof.
  unfold Qgtb. rewrite Qgt_alt. destruct (a ?= b)%Q; split; done.
Qed.

Lemma when_sublist b1 b2 b3 b4 :
  sublist (when b1 syntax_prompt ++ when b2 assignment_prompt
           ++ when b3 return_prompt ++ when b4 complexity_prompt) rule_table.
Proof.
  unfold rule_table.
  destruct b1, b2, b3, b4; simpl;
    repeat first [apply sublist_nil | apply sublist_skip | apply sublist_cons].
Qed.

Lemma when_elem_of b1 b2 b3 b4 :
  let prompts := when b1 syntax_prompt ++ when b2 assignment_prompt
                 ++ when b3 return_prompt ++ when b4 complexity_prompt in
  (syntax_prompt ∈ prompts ↔ b1 = true)
  ∧ (assignment_prompt ∈ prompts ↔ b2 = true)
  ∧ (return_prompt ∈ prompts ↔ b3 = true)
  ∧ (complexity_prompt ∈ prompts ↔ b4 = true).
Proof.
  pose proof rule_table_NoDup as Hnd. unfold rule_table in Hnd.
  repeat (apply NoDup_cons in Hnd as [? Hnd]).
  destruct b1, b2, b3, b4; simpl; set_solver.
Qed.

(** ** The summary of the report *)

Lemma foldl_add l z : foldl Z.add z l = (z + foldr Z.add 0 l)%Z.
Proof.
  revert z. induction l as [|x l IH]; intros z; simpl; [lia | rewrite IH; lia].
Qed.

Lemma sum_Z_foldr l : sum_Z l = foldr Z.add 0%Z l.
Proof. unfold sum_Z. rewrite foldl_add. lia. Qed.

(** ** Properties of the analyzer *)

(** C1.  The claim: on a text that fails to parse, [analyze] returns a result
    with the single entry "Syntax error: {message}", no misconception,
    complexity 0.0 and confidence 0.8.  The program does not: the handler of
    the syntax error appends the entry, but [complexity] was to be bound
    inside the [try] block, so building the result raises
    [UnboundLocalError] and no result is returned. *)
Theorem analyze_parse_failure_raises ast_parse code message :
  ast_parse code = SyntaxError message →
  analyze (CodeAnalyzer := BasicPythonAnalyzer ast_parse) code
    = Raised (UnboundLocalError "complexity")
  ∧ ∀ r, analyze (CodeAnalyzer := BasicPythonAnalyzer ast_parse) code ≠ Returned r.
Proof.
  intros H. rewrite (analyze_syntax_error _ _ _ H). by split.
Qed.

Lemma analyze_parse_failure_raises_witness :
  sample_parse (strip sample_check_number)
    = SyntaxError "invalid syntax (<unknown>, line 2)"
  ∧ analyze (CodeAnalyzer := BasicPythonAnalyzer sample_parse)
      (strip sample_check_number)
    = Raised (UnboundLocalError "complexity").
Proof.
  split; [reflexivity|].
  apply (analyze_parse_failure_raises sample_parse (strip sample_check_number)
           "invalid syntax (<unknown>, line 2)").
  reflexivity.
Defined.

(** C5.  On a text that parses, the complexity score is
    [min(rawCount / 10, 1)], where [rawCount] counts one for each for-loop,
    while-loop and if-statement node of the tree and two for each function
    definition node; without such nodes the score is zero. *)
Theorem complexity_score_formula ast_parse code tree :
  ast_parse code = Parsed tree →
  ∃ r, analyze (CodeAnalyzer := BasicPythonAnalyzer ast_parse) code = Returned r
       ∧ complexity_score r
         = Qmin (inject_Z (Z.of_nat (weighted_count tree)) / 10) 1
       ∧ (weighted_count tree = 0 → (complexity_score r == 0)%Q).
Proof.
  intros H. eexists. split; [by apply analyze_parsed|]. simpl.
  rewrite calculate_complexity_weighted. split; [done|].
  by intros ->.
Qed.

Lemma complexity_score_formula_witness :
  sample_parse (strip sample_calculate_sum) = Parsed calculate_sum_tree
  ∧ ∃ r, analyze (CodeAnalyzer := BasicPythonAnalyzer sample_parse)
           (strip sample_calculate_sum) = Returned r
         ∧ complexity_score r
           = Qmin (inject_Z (Z.of_nat (weighted_count calculate_sum_tree)) / 10) 1
         ∧ (weighted_count calculate_sum_tree = 0 → (complexity_score r == 0)%Q).
Proof.
  split; [reflexivity|].
  apply (complexity_score_formula sample_parse). reflexivity.
Defined.

(** C9.  The complexity score does not decrease when the weighted node count
    (loops + conditionals + 2 x function definitions) grows, and every score
    that [analyze] returns lies between 0 and 1. *)
Theorem complexity_score_monotone_bounded ast_parse :
  (∀ codeA codeB treeA treeB rA rB,
     ast_parse codeA = Parsed treeA →
     ast_parse codeB = Parsed treeB →
     analyze (CodeAnalyzer := BasicPythonAnalyzer ast_parse) codeA = Returned rA →
     analyze (CodeAnalyzer := BasicPythonAnalyzer ast_parse) codeB = Returned rB →
     weighted_count treeA ≤ weighted_count treeB →
     (complexity_score rA <= complexity_score rB)%Q)
  ∧ (∀ code r,
       analyze (CodeAnalyzer := BasicPythonAnalyzer ast_parse) code = Returned r →
       (0 <= complexity_score r <= 1)%Q).
Proof.
  split.
  - intros codeA codeB treeA treeB rA rB HA HB.
    rewrite (analyze_parsed _ _ _ HA), (analyze_parsed _ _ _ HB).
    intros [= <-] [= <-] Hle. simpl. rewrite !calculate_complexity_weighted.
    by apply Q.min_le_compat_r, tenth_le.
  - intros code r. destruct (ast_parse code) as [tree|message|e] eqn:H.
    + rewrite (analyze_parsed _ _ _ H). intros [= <-]. simpl.
      rewrite calculate_complexity_weighted. split.
      * apply Q.min_glb; [apply tenth_nonneg | done].
      * apply Q.le_min_r.
    + by rewrite (analyze_syntax_error _ _ _ H).
    + cbn [analyze BasicPythonAnalyzer].
      unfold BasicPythonAnalyzer_analyze, analyze_try. by rewrite H.
Qed.

Lemma complexity_score_monotone_bounded_witness :
  ∃ rA rB,
    analyze (CodeAnalyzer := BasicPythonAnalyzer sample_parse)
      (strip sample_calculate_sum) = Returned rA
    ∧ analyze (CodeAnalyzer := BasicPythonAnalyzer sample_parse)
        (strip sample_fibonacci) = Returned rB
    ∧ (complexity_score rA <= complexity_score rB)%Q
    ∧ (0 <= complexity_score rA <= 1)%Q.
Proof.
  eexists _, _. split; [reflexivity|]. split; [reflexivity|]. split.
  - apply (proj1 (complexity_score_monotone_bounded sample_parse)
             (strip sample_calculate_sum) (strip sample_fibonacci)
             calculate_sum_tree fibonacci_tree);
      [reflexivity | reflexivity | reflexivity | reflexivity | vm_compute; lia].
  - apply (proj2 (complexity_score_monotone_bounded sample_parse)
             (strip sample_calculate_sum)).
    reflexivity.
Defined.

(** C6.  On a text that parses, the syntax errors are the messages
    "Line {n}: Possible assignment in condition" of exactly the lines [n]
    (counted from 1) that contain [=], contain neither [==] nor [!=], and
    contain "if "; they come in line order and there is no other entry. *)
Theorem syntax_errors_flag_assignment_lines ast_parse code tree :
  ast_parse code = Parsed tree →
  ∃ r ns,
    analyze (CodeAnalyzer := BasicPythonAnalyzer ast_parse) code = Returned r
    ∧ syntax_errors r = line_issue <$> ns
    ∧ StronglySorted lt ns
    ∧ ∀ n, n ∈ ns ↔
        1 ≤ n ∧ ∃ line, split newline code !! (n - 1) = Some line
                        ∧ assignment_in_condition line.
Proof.
  intros H. destruct (check_syntax_issues_lines code) as (ns & Hns & Hsorted & Hin).
  eexists _, ns. split; [by apply analyze_parsed|]. by simpl.
Qed.

Lemma syntax_errors_flag_assignment_lines_witness :
  sample_parse (strip sample_fibonacci) = Parsed fibonacci_tree
  ∧ ∃ r ns,
      analyze (CodeAnalyzer := BasicPythonAnalyzer sample_parse)
        (strip sample_fibonacci) = Returned r
      ∧ syntax_errors r = line_issue <$> ns
      ∧ StronglySorted lt ns
      ∧ ∀ n, n ∈ ns ↔
          1 ≤ n ∧ ∃ line, split newline (strip sample_fibonacci) !! (n - 1) = Some line
                          ∧ assignment_in_condition line.
Proof.
  split; [reflexivity|].
  apply (syntax_errors_flag_assignment_lines sample_parse
           (strip sample_fibonacci) fibonacci_tree).
  reflexivity.
Defined.

(** C7.  On a text that parses, the misconceptions are the string
    "Function may be missing return statement" once for every function
    definition node that is not named [__init__] and has no return statement
    among its descendants, and nothing else: with several such functions the
    same string is repeated. *)
Theorem misconceptions_one_per_function ast_parse code tree :
  ast_parse code = Parsed tree →
  ∃ r, analyze (CodeAnalyzer := BasicPythonAnalyzer ast_parse) code = Returned r
       ∧ misconceptions r
         = replicate (length (filter lacks_return (nodes tree)))
             "Function may be missing return statement".
Proof.
  intros H. eexists. split; [by apply analyze_parsed|]. simpl.
  apply detect_misconceptions_count.
Qed.

Lemma misconceptions_one_per_function_witness :
  sample_parse (strip sample_calculate_sum) = Parsed calculate_sum_tree
  ∧ ∃ r, analyze (CodeAnalyzer := BasicPythonAnalyzer sample_parse)
           (strip sample_calculate_sum) = Returned r
         ∧ misconceptions r
           = replicate (length (filter lacks_return (nodes calculate_sum_tree)))
               "Function may be missing return statement".
Proof.
  split; [reflexivity|].
  apply (misconceptions_one_per_function sample_parse
           (strip sample_calculate_sum) calculate_sum_tree).
  reflexivity.
Defined.

(** ** Properties of the prompt generator *)

(** C4.  For every code text and analysis, [generate_prompts] returns a
    subsequence of the four fixed prompts in the order of the rule table;
    the syntax prompt is in it iff [syntax_errors] is not empty, the
    assignment prompt iff "assignment in condition" occurs in the rendering
    of [syntax_errors], the return prompt iff "missing return statement"
    occurs in the rendering of [misconceptions], and the complexity prompt
    iff the complexity score exceeds 0.5. *)
Theorem generate_prompts_rule_table code a :
  ∃ prompts,
    generate_prompts (PromptGenerator := RuleBasedPromptGenerator) code a
      = Returned prompts
    ∧ sublist prompts
        [syntax_prompt; assignment_prompt; return_prompt; complexity_prompt]
    ∧ (syntax_prompt ∈ prompts ↔ fires_syntax a)
    ∧ (assignment_prompt ∈ prompts ↔ fires_assignment a)
    ∧ (return_prompt ∈ prompts ↔ fires_return a)
    ∧ (complexity_prompt ∈ prompts ↔ fires_complexity a).
Proof.
  eexists. split; [apply generate_prompts_when|].
  split; [apply when_sublist|].
  unfold fires_syntax, fires_assignment, fires_return, fires_complexity.
  rewrite <- truthy_spec, <- !str_in_occurs, <- Qgtb_spec.
  apply when_elem_of.
Qed.

(** C10.  Whenever the assignment prompt is emitted, the syntax prompt is
    emitted too and comes right before it, at the head of the list: the
    rendering of an empty [syntax_errors] does not contain the phrase. *)
Theorem assignment_prompt_follows_syntax_prompt code a prompts :
  generate_prompts (PromptGenerator := RuleBasedPromptGenerator) code a
    = Returned prompts →
  assignment_prompt ∈ prompts →
  syntax_errors a ≠ []
  ∧ ∃ rest, prompts = syntax_prompt :: assignment_prompt :: rest.
Proof.
  rewrite generate_prompts_when. intros [= <-] Hin.
  apply when_elem_of in Hin as Hfire. rewrite Hfire.
  destruct (syntax_errors a) as [|e es] eqn:Herr.
  - by vm_compute in Hfire.
  - split; [done|]. simpl. eauto.
Qed.

Lemma assignment_prompt_follows_syntax_prompt_witness :
  syntax_errors flagged_analysis ≠ []
  ∧ ∃ rest,
      [syntax_prompt; assignment_prompt] = syntax_prompt :: assignment_prompt :: rest.
Proof.
  apply (assignment_prompt_follows_syntax_prompt
           "if x = 5:" flagged_analysis [syntax_prompt; assignment_prompt]).
  - reflexivity.
  - apply elem_of_cons. right. apply elem_of_cons. by left.
Defined.

(** ** Properties of the evaluator *)

(** C8.  In every evaluation, whatever the analyzer and the prompt generator:
    when both return, the evaluation returns a report whose prompt entries
    are those of the generated prompts, in their order, and whose summary
    has for count the number of generated prompts, for categories the
    distinct categories of the generated prompts, and for average difficulty
    the arithmetic mean of their difficulty levels, or 0 when the generator
    gave no prompt; and a report is returned only when both have returned. *)
Theorem summary_of_report
    (analyzer : CodeAnalyzer) (prompt_generator : PromptGenerator) code :
  (∀ analysis prompts,
     analyze code = Returned analysis →
     generate_prompts code analysis = Returned prompts →
     ∃ report,
       evaluate_student_code analyzer prompt_generator code = Returned report
       ∧ generated_prompts report = entry_of <$> prompts
       ∧ total_prompts (summary report) = length prompts
       ∧ (∀ c, c ∈ categories (summary report)
               ↔ ∃ p, p ∈ prompts ∧ category p = c)
       ∧ (prompts = [] → (avg_difficulty (summary report) == 0)%Q)
       ∧ (prompts ≠ [] →
          (avg_difficulty (summary report)
           == mean (difficulty_level <$> prompts))%Q))
  ∧ (∀ report,
       evaluate_student_code analyzer prompt_generator code = Returned report →
       ∃ analysis prompts,
         analyze code = Returned analysis
         ∧ generate_prompts code analysis = Returned prompts).
Proof.
  unfold evaluate_student_code. split.
  - intros analysis prompts Ha Hp. rewrite Ha. cbn [mbind exc_bind].
    rewrite Hp. cbn [mbind exc_bind mret exc_ret].
    eexists. split; [reflexivity|].
    cbn [summary generated_prompts total_prompts categories avg_difficulty].
    split; [done|]. split; [done|]. split; [|split].
    + intros c. rewrite elem_of_list_to_set, list_elem_of_fmap. split.
      * intros (p & -> & Hin). by exists p.
      * intros (p & Hin & <-). by exists p.
    + by intros ->.
    + intros Hne. destruct prompts as [|p prompts]; [done|].
      unfold mean. cbn [truthy]. rewrite sum_Z_foldr, length_fmap. reflexivity.
  - intros report.
    destruct (analyze code) as [analysis|e] eqn:Ha; [|done]. cbn [mbind exc_bind].
    destruct (generate_prompts code analysis) as [prompts|e] eqn:Hp; [|done].
    intros _. by exists analysis, prompts.
Qed.

Lemma summary_of_report_witness :
  ∃ report,
    evaluate_student_code (BasicPythonAnalyzer sample_parse)
      RuleBasedPromptGenerator (strip sample_fibonacci) = Returned report
    ∧ generated_prompts report
      = entry_of <$> [syntax_prompt; assignment_prompt]
    ∧ total_prompts (summary report) = 2
    ∧ (avg_difficulty (summary report)
       == mean (difficulty_level <$> [syntax_prompt; assignment_prompt]))%Q.
Proof.
  destruct (proj1 (summary_of_report (BasicPythonAnalyzer sample_parse)
                     RuleBasedPromptGenerator (strip sample_fibonacci))
              {| syntax_errors := ["Line 2: Possible assignment in condition"];
                 logical_issues := [];
                 misconceptions := [];
                 complexity_score := _calculate_complexity fibonacci_tree;
                 confidence := 0.8 |}
              [syntax_prompt; assignment_prompt] eq_refl eq_refl)
    as (report & Hrep & Hgen & Hcount & _ & _ & Hmean).
  exists report. split; [exact Hrep|]. split; [exact Hgen|].
  split; [exact Hcount|]. apply Hmean. discriminate.
Defined.

(** ** The demonstration samples *)

(** C2.  The claim: for the first sample, which does not parse, the analysis
    reports the syntax error and the generator emits the syntax prompt only.
    The program does not get there: [analyze] raises [UnboundLocalError]
    (see C1), the evaluation raises with it, no prompt is generated and the
    driver reports the error. *)
Theorem first_sample_evaluation_raises ast_parse message :
  ast_parse (strip sample_check_number) = SyntaxError message →
  demonstrate_evaluation ast_parse !! 0
    = Some (Raised (UnboundLocalError "complexity"))
  ∧ ∀ report,
      evaluate_student_code (BasicPythonAnalyzer ast_parse)
        RuleBasedPromptGenerator (strip sample_check_number) ≠ Returned report.
Proof.
  intros H.
  assert (evaluate_student_code (BasicPythonAnalyzer ast_parse)
            RuleBasedPromptGenerator (strip sample_check_number)
          = Raised (UnboundLocalError "complexity")) as Heval.
  { unfold evaluate_student_code. by rewrite (analyze_syntax_error _ _ _ H). }
  split.
  - change (demonstrate_evaluation ast_parse !! 0)
      with (Some (evaluate_student_code (BasicPythonAnalyzer ast_parse)
                    RuleBasedPromptGenerator (strip sample_check_number))).
    by rewrite Heval.
  - intros report. by rewrite Heval.
Qed.

Lemma first_sample_evaluation_raises_witness :
  sample_parse (strip sample_check_number)
    = SyntaxError "invalid syntax (<unknown>, line 2)"
  ∧ demonstrate_evaluation sample_parse !! 0
    = Some (Raised (UnboundLocalError "complexity")).
Proof.
  split; [reflexivity|].
  apply (first_sample_evaluation_raises sample_parse
           "invalid syntax (<unknown>, line 2)").
  reflexivity.
Defined.

(** C3.  For the Fibonacci sample the complexity score is 0.3 (one
    conditional and one function definition), as the claim says.  The claim
    also expects no prompt; the program emits two: the line [if n <= 1:]
    contains [=] in [<=], neither [==] nor [!=], and "if ", so the
    syntax-issue heuristic reports it, and the syntax prompt and the
    assignment prompt follow. *)
Theorem fibonacci_sample_gets_two_prompts ast_parse :
  ast_parse (strip sample_fibonacci) = Parsed fibonacci_tree →
  ∃ report,
    demonstrate_evaluation ast_parse !! 2 = Some (Returned report)
    ∧ (complexity_score (report_analysis report) == 0.3)%Q
    ∧ syntax_errors (report_analysis report)
      = ["Line 2: Possible assignment in condition"]
    ∧ misconceptions (report_analysis report) = []
    ∧ generated_prompts report
      = [entry_of syntax_prompt; entry_of assignment_prompt]
    ∧ total_prompts (summary report) = 2.
Proof.
  intros H.
  change (demonstrate_evaluation ast_parse !! 2)
    with (Some (evaluate_student_code (BasicPythonAnalyzer ast_parse)
                  RuleBasedPromptGenerator (strip sample_fibonacci))).
  unfold evaluate_student_code. rewrite (analyze_parsed _ _ _ H).
  eexists. split; [reflexivity|]. by vm_compute.
Qed.

Lemma fibonacci_sample_gets_two_prompts_witness :
  sample_parse (strip sample_fibonacci) = Parsed fibonacci_tree
  ∧ ∃ report,
      demonstrate_evaluation sample_parse !! 2 = Some (Returned report)
      ∧ (complexity_score (report_analysis report) == 0.3)%Q
      ∧ syntax_errors (report_analysis report)
        = ["Line 2: Possible assignment in condition"]
      ∧ misconceptions (report_analysis report) = []
      ∧ generated_prompts report
        = [entry_of syntax_prompt; entry_of assignment_prompt]
      ∧ total_prompts (summary report) = 2.
Proof.
  split; [reflexivity|].
  apply (fibonacci_sample_gets_two_prompts sample_parse). reflexivity.
Defined.


(** * Further properties of the program *)

(** ** More on strings *)

Lemma append_assoc a b c : (a +:+ b) +:+ c = a +:+ b +:+ c.
Proof. induction a as [|x a IH]; [done|]. by rewrite !append_cons, IH. Qed.

Lemma append_nil_r a : a +:+ EmptyString = a.
Proof. induction a as [|x a IH]; [done|]. by rewrite append_cons, IH. Qed.

Lemma append_length a b :
  String.length (a +:+ b) = String.length a + String.length b.
Proof. induction a as [|x a IH]; [done|]. rewrite append_cons. simpl. by rewrite IH. Qed.

Lemma append_inj_r a b t : a +:+ t = b +:+ t → a = b.
Proof.
  revert b. induction a as [|x a IH]; intros [|y b] H; [done| | |].
  - apply (f_equal String.length) in H. rewrite append_nil, append_length in H.
    simpl in H. lia.
  - apply (f_equal String.length) in H. rewrite append_nil, append_length in H.
    simpl in H. lia.
  - rewrite !append_cons in H. injection H as -> H. f_equal. by apply IH.
Qed.

Lemma occurs_append needle a h b : occurs needle h → occurs needle (a +:+ h +:+ b).
Proof.
  intros (pre & post & ->). exists (a +:+ pre), (post +:+ b).
  by rewrite !append_assoc.
Qed.

Lemma repr_body_append q a b :
  repr_body q (a +:+ b) = repr_body q a +:+ repr_body q b.
Proof.
  induction a as [|x a IH]; [done|].
  rewrite append_cons. simpl. by rewrite IH, append_assoc.
Qed.

Lemma repr_quote_cases s : repr_quote s = squote ∨ repr_quote s = dquote.
Proof. unfold repr_quote. destruct (_ && _); auto. Qed.

(** A phrase that [repr] leaves as it is, whichever quote it chooses, shows
    in the rendering of every string it occurs in. *)
Lemma occurs_repr needle s :
  repr_body squote needle = needle → repr_body dquote needle = needle →
  occurs needle s → occurs needle (repr s).
Proof.
  intros Hs Hd (pre & post & ->). unfold repr.
  assert (repr_body (repr_quote (pre +:+ needle +:+ post)) needle = needle) as Hq
    by (destruct (repr_quote_cases (pre +:+ needle +:+ post)) as [-> | ->]; done).
  rewrite !repr_body_append, Hq.
  set (q := repr_quote _).
  exists (String q (repr_body q pre)), (repr_body q post +:+ String q EmptyString).
  by rewrite append_cons, !append_assoc.
Qed.

Lemma occurs_join needle sep l x :
  x ∈ l → occurs needle x → occurs needle (join sep l).
Proof.
  intros Hin Hx. induction l as [|y l IH]; [by apply elem_of_nil in Hin|].
  apply elem_of_cons in Hin as [<-|Hin].
  - destruct l as [|z l]; [done|].
    change (join sep (x :: z :: l)) with (x +:+ sep +:+ join sep (z :: l)).
    rewrite <- (append_nil (x +:+ _)). by apply occurs_append.
  - destruct l as [|z l]; [by apply elem_of_nil in Hin|].
    change (join sep (y :: z :: l)) with (y +:+ sep +:+ join sep (z :: l)).
    rewrite <- (append_nil_r (join sep (z :: l))), <- append_assoc.
    apply occurs_append. by apply IH.
Qed.

Lemma occurs_str_list needle l x :
  repr_body squote needle = needle → repr_body dquote needle = needle →
  x ∈ l → occurs needle x → occurs needle (str_list l).
Proof.
  intros Hs Hd Hin Hx. unfold str_list. apply occurs_append.
  apply (occurs_join _ _ _ (repr x)).
  - apply list_elem_of_fmap. by exists x.
  - by apply occurs_repr.
Qed.

Lemma line_issue_phrase i : occurs "assignment in condition" (line_issue i).
Proof.
  exists ("Line " +:+ str_of_nat i +:+ ": Possible "), EmptyString.
  unfold line_issue. by rewrite !append_assoc.
Qed.

(** ** What the analysis of a parsed text makes the rules do *)

Lemma check_syntax_issues_truthy code :
  truthy (_check_syntax_issues code) = true ↔ has_flagged_line code.
Proof.
  destruct (check_syntax_issues_lines code) as (ns & -> & _ & Hin).
  rewrite truthy_spec. unfold has_flagged_line. split.
  - destruct ns as [|n ns]; [done|]. intros _.
    destruct (proj1 (Hin n)) as (_ & line & Hl & Hf); [by left|].
    by exists (n - 1), line.
  - intros (k & line & Hl & Hf).
    assert (S k ∈ ns) as Hk.
    { apply Hin. split; [lia|]. exists line. by rewrite Nat.sub_1_r. }
    destruct ns; [by apply elem_of_nil in Hk | done].
Qed.

Lemma check_syntax_issues_phrase code :
  str_in "assignment in condition" (str_list (_check_syntax_issues code))
  = truthy (_check_syntax_issues code).
Proof.
  destruct (check_syntax_issues_lines code) as (ns & -> & _ & _).
  destruct ns as [|n ns]; [done|]. cbn [truthy fmap list_fmap].
  apply str_in_occurs, (occurs_str_list _ _ (line_issue n)); [done|done| |].
  - by left.
  - apply line_issue_phrase.
Qed.

Lemma detect_misconceptions_phrase tree code :
  str_in "missing return statement"
    (str_list (_detect_common_misconceptions tree code)) = true
  ↔ has_function_without_return tree.
Proof.
  rewrite detect_misconceptions_count. unfold has_function_without_return.
  destruct (filter lacks_return (nodes tree)) as [|n l] eqn:Hf; simpl length.
  - split; [done|]. intros (n & Hn & Hl).
    assert (n ∈ filter lacks_return (nodes tree)) as Hin
      by by apply list_elem_of_filter.
    rewrite Hf in Hin. by apply elem_of_nil in Hin.
  - split.
    + intros _. exists n.
      assert (n ∈ filter lacks_return (nodes tree)) as Hin by (rewrite Hf; by left).
      apply list_elem_of_filter in Hin as [? ?]. done.
    + intros _. apply str_in_occurs.
      apply (occurs_str_list _ _ missing_return); [done|done| |].
      * by left.
      * by apply str_in_occurs.
Qed.

Lemma half_lt_tenth (w : nat) :
  (0.5 < inject_Z (Z.of_nat w) / 10)%Q ↔ 6 ≤ w.
Proof. unfold Qlt, Qdiv, Qmult, Qinv, inject_Z. simpl. lia. Qed.

Lemma calculate_complexity_above_half tree :
  Qgtb (_calculate_complexity tree) 0.5 = true ↔ 6 ≤ weighted_count tree.
Proof.
  rewrite Qgtb_spec, calculate_complexity_weighted, Q.min_glb_lt_iff, half_lt_tenth.
  split; [by intros [? _] | done].
Qed.

Lemma pipeline_prompts ast_parse code tree :
  ast_parse code = Parsed tree →
  ∃ r, analyze (CodeAnalyzer := BasicPythonAnalyzer ast_parse) code = Returned r
       ∧ generate_prompts (PromptGenerator := RuleBasedPromptGenerator) code r
         = Returned
             (when (truthy (_check_syntax_issues code)) syntax_prompt
              ++ when (truthy (_check_syntax_issues code)) assignment_prompt
              ++ when (str_in "missing return statement"
                         (str_list (_detect_common_misconceptions tree code)))
                   return_prompt
              ++ when (Qgtb (_calculate_complexity tree) 0.5) complexity_prompt).
Proof.
  intros H. eexists. split; [by apply analyze_parsed|].
  rewrite generate_prompts_when. cbn [syntax_errors misconceptions complexity_score].
  by rewrite check_syntax_issues_phrase.
Qed.

(** X1.  [analyze] returns a result exactly for the texts the parser turns
    into a tree; an exception of the parser other than a syntax error leaves
    [analyze] as it is. *)
Theorem analyze_returns_iff_parsed ast_parse code :
  ((∃ r, analyze (CodeAnalyzer := BasicPythonAnalyzer ast_parse) code = Returned r)
   ↔ ∃ tree, ast_parse code = Parsed tree)
  ∧ ∀ e, ast_parse code = ParseRaises e →
         analyze (CodeAnalyzer := BasicPythonAnalyzer ast_parse) code = Raised e.
Proof.
  split; [split|].
  - intros [r Hr]. destruct (ast_parse code) as [tree|message|e] eqn:H; [eauto| |].
    + by rewrite (analyze_syntax_error _ _ _ H) in Hr.
    + cbn [analyze BasicPythonAnalyzer] in Hr.
      unfold BasicPythonAnalyzer_analyze, analyze_try in Hr. by rewrite H in Hr.
  - intros [tree H]. rewrite (analyze_parsed _ _ _ H). eauto.
  - intros e H. cbn [analyze BasicPythonAnalyzer].
    unfold BasicPythonAnalyzer_analyze, analyze_try. by rewrite H.
Qed.

Lemma analyze_returns_iff_parsed_witness :
  one_text_parse "x = 1" assignment_tree "x = 2"
    = ParseRaises (OtherError "source text outside the table")
  ∧ analyze (CodeAnalyzer := BasicPythonAnalyzer (one_text_parse "x = 1" assignment_tree))
      "x = 2"
    = Raised (OtherError "source text outside the table").
Proof.
  split; [reflexivity|].
  apply (proj2 (analyze_returns_iff_parsed
                  (one_text_parse "x = 1" assignment_tree) "x = 2")).
  reflexivity.
Defined.

(** X2.  Every result [analyze] returns has no logical issue and confidence
    0.8; each of its misconceptions is the one fixed message, and each of its
    syntax errors is the message of a line number between 1 and the number
    of lines of the text. *)
Theorem analyze_result_shape ast_parse code r :
  analyze (CodeAnalyzer := BasicPythonAnalyzer ast_parse) code = Returned r →
  logical_issues r = []
  ∧ confidence r = 0.8%Q
  ∧ (∀ m, m ∈ misconceptions r → m = "Function may be missing return statement")
  ∧ (∀ e, e ∈ syntax_errors r →
       ∃ n, e = line_issue n ∧ 1 ≤ n ≤ length (split newline code)).
Proof.
  intros Hr. destruct (ast_parse code) as [tree|message|e] eqn:H.
  - rewrite (analyze_parsed _ _ _ H) in Hr. injection Hr as <-.
    cbn [logical_issues confidence misconceptions syntax_errors].
    split; [done|]. split; [done|]. split.
    + intros m. rewrite detect_misconceptions_count. by intros [-> _]%elem_of_replicate.
    + intros e. destruct (check_syntax_issues_lines code) as (ns & -> & _ & Hin).
      intros (n & -> & Hn)%list_elem_of_fmap. exists n. split; [done|].
      apply Hin in Hn as (Hn & line & Hl & _). apply lookup_lt_Some in Hl. lia.
  - by rewrite (analyze_syntax_error _ _ _ H) in Hr.
  - cbn [analyze BasicPythonAnalyzer] in Hr.
    unfold BasicPythonAnalyzer_analyze, analyze_try in Hr. by rewrite H in Hr.
Qed.

Lemma analyze_result_shape_witness :
  ∃ r, analyze (CodeAnalyzer := BasicPythonAnalyzer sample_parse)
         (strip sample_fibonacci) = Returned r
       ∧ logical_issues r = []
       ∧ confidence r = 0.8%Q.
Proof.
  eexists. split; [reflexivity|].
  pose proof (analyze_result_shape sample_parse (strip sample_fibonacci) _ eq_refl)
    as (Hl & Hc & _).
  split; [exact Hl | exact Hc].
Defined.

(** X3.  The complexity score grows by a tenth per unit of weighted count
    below ten and stays at 1 from ten on. *)
Theorem complexity_score_saturates tree :
  (weighted_count tree < 10 →
   (_calculate_complexity tree == inject_Z (Z.of_nat (weighted_count tree)) / 10)%Q)
  ∧ (10 ≤ weighted_count tree → (_calculate_complexity tree == 1)%Q).
Proof.
  rewrite calculate_complexity_weighted. split; intros H.
  - apply Q.min_l. unfold Qle, Qdiv, Qmult, Qinv, inject_Z. simpl. lia.
  - apply Q.min_r. unfold Qle, Qdiv, Qmult, Qinv, inject_Z. simpl. lia.
Qed.

Lemma complexity_score_saturates_witness :
  weighted_count fibonacci_tree < 10
  ∧ (_calculate_complexity fibonacci_tree == 3 # 10)%Q.
Proof.
  split; [vm_compute; lia|].
  apply (proj1 (complexity_score_saturates fibonacci_tree)). vm_compute. lia.
Defined.

(** X4.  For a text that parses, the complexity prompt is generated exactly
    when the weighted node count of its tree is at least 6. *)
Theorem complexity_prompt_iff_six ast_parse code tree :
  ast_parse code = Parsed tree →
  ∃ r prompts,
    analyze (CodeAnalyzer := BasicPythonAnalyzer ast_parse) code = Returned r
    ∧ generate_prompts (PromptGenerator := RuleBasedPromptGenerator) code r
      = Returned prompts
    ∧ (complexity_prompt ∈ prompts ↔ 6 ≤ weighted_count tree).
Proof.
  intros H. destruct (pipeline_prompts _ _ _ H) as (r & Hr & Hp).
  eexists r, _. split; [done|]. split; [exact Hp|].
  rewrite <- calculate_complexity_above_half. apply when_elem_of.
Qed.

Lemma complexity_prompt_iff_six_witness :
  sample_parse (strip sample_calculate_sum) = Parsed calculate_sum_tree
  ∧ ∃ r prompts,
      analyze (CodeAnalyzer := BasicPythonAnalyzer sample_parse)
        (strip sample_calculate_sum) = Returned r
      ∧ generate_prompts (PromptGenerator := RuleBasedPromptGenerator)
          (strip sample_calculate_sum) r = Returned prompts
      ∧ (complexity_prompt ∈ prompts ↔ 6 ≤ weighted_count calculate_sum_tree).
Proof.
  split; [reflexivity|].
  apply (complexity_prompt_iff_six sample_parse). reflexivity.
Defined.

(** X5.  For a text that parses, the return prompt is generated exactly when
    some function definition of the tree, not named [__init__], has no
    return statement among its descendants. *)
Theorem return_prompt_iff_function_without_return ast_parse code tree :
  ast_parse code = Parsed tree →
  ∃ r prompts,
    analyze (CodeAnalyzer := BasicPythonAnalyzer ast_parse) code = Returned r
    ∧ generate_prompts (PromptGenerator := RuleBasedPromptGenerator) code r
      = Returned prompts
    ∧ (return_prompt ∈ prompts ↔ has_function_without_return tree).
Proof.
  intros H. destruct (pipeline_prompts _ _ _ H) as (r & Hr & Hp).
  eexists r, _. split; [done|]. split; [exact Hp|].
  rewrite <- (detect_misconceptions_phrase tree code). apply when_elem_of.
Qed.

Lemma return_prompt_iff_function_without_return_witness :
  sample_parse (strip sample_calculate_sum) = Parsed calculate_sum_tree
  ∧ ∃ r prompts,
      analyze (CodeAnalyzer := BasicPythonAnalyzer sample_parse)
        (strip sample_calculate_sum) = Returned r
      ∧ generate_prompts (PromptGenerator := RuleBasedPromptGenerator)
          (strip sample_calculate_sum) r = Returned prompts
      ∧ (return_prompt ∈ prompts ↔ has_function_without_return calculate_sum_tree).
Proof.
  split; [reflexivity|].
  apply (return_prompt_iff_function_without_return sample_parse). reflexivity.
Defined.

(** X6.  For a text that parses, the syntax prompt and the assignment prompt
    are generated together or not at all: both exactly when some line of the
    text meets the condition of the syntax-issue heuristic. *)
Theorem syntax_and_assignment_prompts_together ast_parse code tree :
  ast_parse code = Parsed tree →
  ∃ r prompts,
    analyze (CodeAnalyzer := BasicPythonAnalyzer ast_parse) code = Returned r
    ∧ generate_prompts (PromptGenerator := RuleBasedPromptGenerator) code r
      = Returned prompts
    ∧ (syntax_prompt ∈ prompts ↔ has_flagged_line code)
    ∧ (assignment_prompt ∈ prompts ↔ has_flagged_line code).
Proof.
  intros H. destruct (pipeline_prompts _ _ _ H) as (r & Hr & Hp).
  eexists r, _. split; [done|]. split; [exact Hp|].
  rewrite <- check_syntax_issues_truthy.
  split; apply when_elem_of.
Qed.

Lemma syntax_and_assignment_prompts_together_witness :
  sample_parse (strip sample_fibonacci) = Parsed fibonacci_tree
  ∧ ∃ r prompts,
      analyze (CodeAnalyzer := BasicPythonAnalyzer sample_parse)
        (strip sample_fibonacci) = Returned r
      ∧ generate_prompts (PromptGenerator := RuleBasedPromptGenerator)
          (strip sample_fibonacci) r = Returned prompts
      ∧ (syntax_prompt ∈ prompts ↔ has_flagged_line (strip sample_fibonacci))
      ∧ (assignment_prompt ∈ prompts ↔ has_flagged_line (strip sample_fibonacci)).
Proof.
  split; [reflexivity|].
  apply (syntax_and_assignment_prompts_together sample_parse
           (strip sample_fibonacci) fibonacci_tree).
  reflexivity.
Defined.

(** X7.  Whatever the analysis: a syntax error that contains
    "assignment in condition" makes the generator emit the syntax prompt and
    the assignment prompt, and a misconception that contains
    "missing return statement" makes it emit the return prompt. *)
Theorem entry_with_phrase_fires_rule code a :
  ∃ prompts,
    generate_prompts (PromptGenerator := RuleBasedPromptGenerator) code a
      = Returned prompts
    ∧ ((∃ e, e ∈ syntax_errors a ∧ occurs "assignment in condition" e) →
       syntax_prompt ∈ prompts ∧ assignment_prompt ∈ prompts)
    ∧ ((∃ m, m ∈ misconceptions a ∧ occurs "missing return statement" m) →
       return_prompt ∈ prompts).
Proof.
  eexists. split; [apply generate_prompts_when|]. split.
  - intros (e & He & Hocc). split; apply when_elem_of.
    + apply truthy_spec. intros Hnil. rewrite Hnil in He. by apply elem_of_nil in He.
    + by apply str_in_occurs, (occurs_str_list _ _ e).
  - intros (m & Hm & Hocc). apply when_elem_of.
    by apply str_in_occurs, (occurs_str_list _ _ m).
Qed.

Lemma entry_with_phrase_fires_rule_witness :
  ∃ prompts,
    generate_prompts (PromptGenerator := RuleBasedPromptGenerator)
      "if x = 5:" flagged_analysis = Returned prompts
    ∧ syntax_prompt ∈ prompts ∧ assignment_prompt ∈ prompts.
Proof.
  destruct (entry_with_phrase_fires_rule "if x = 5:" flagged_analysis)
    as (prompts & Hp & Hs & _).
  exists prompts. split; [exact Hp|]. apply Hs.
  exists "Line 2: Possible assignment in condition". split; [by left|].
  by apply str_in_occurs.
Defined.

(** ** Line messages are told apart by their line number *)

Lemma to_uint_nonnil n : Nat.to_uint n ≠ Decimal.Nil.
Proof.
  rewrite <- (Unsigned.of_to n), Unsigned.to_of. apply unorm_nonnil.
Qed.

Lemma str_of_nat_inj a b : str_of_nat a = str_of_nat b → a = b.
Proof.
  unfold str_of_nat. intros H.
  apply (f_equal NilZero.uint_of_string) in H.
  rewrite !NilZero.usu in H by apply to_uint_nonnil.
  injection H as H. apply (f_equal Nat.of_uint) in H.
  by rewrite !Unsigned.of_to in H.
Qed.

Lemma append_inj_l t a b : t +:+ a = t +:+ b → a = b.
Proof.
  induction t as [|x t IH]; [done|]. rewrite !append_cons. intros [= H]. by apply IH.
Qed.

#[global] Instance line_issue_inj : Inj (=) (=) line_issue.
Proof.
  intros a b H. unfold line_issue in H.
  apply append_inj_l, append_inj_r in H. by apply str_of_nat_inj.
Qed.

Lemma StronglySorted_lt_NoDup (l : list nat) : StronglySorted lt l → NoDup l.
Proof.
  induction 1 as [|x l _ IH Hall]; constructor; [|done].
  intros Hin. rewrite Forall_forall in Hall. specialize (Hall x Hin). lia.
Qed.

Lemma filter_length_impl {A} (P Q : A → Prop)
    `{∀ x, Decision (P x)} `{∀ x, Decision (Q x)} (l : list A) :
  (∀ x, P x → Q x) → length (filter P l) ≤ length (filter Q l).
Proof.
  intros HPQ. induction l as [|x l IH]; [done|].
  rewrite !filter_cons. destruct (decide (P x)) as [HP|HP].
  - rewrite decide_True by auto. simpl. lia.
  - destruct (decide (Q x)); simpl; lia.
Qed.

(** ** White space at the ends *)

Lemma lstrip_head s : head_not_space (lstrip s).
Proof.
  induction s as [|c s IH]; [done|]. simpl.
  destruct (isspace c) eqn:E; [done | by simpl].
Qed.

Lemma lstrip_fixed s : head_not_space s → lstrip s = s.
Proof. destruct s as [|c s]; [done|]. simpl. by intros ->. Qed.

Lemma rstrip_head s : head_not_space s → head_not_space (rstrip s).
Proof.
  destruct s as [|c s]; [done|]. simpl. intros Hc.
  destruct (rstrip s); [by rewrite Hc | done].
Qed.

Lemma rstrip_idemp s : rstrip (rstrip s) = rstrip s.
Proof.
  induction s as [|c s IH]; [done|]. simpl.
  destruct (rstrip s) as [|d r] eqn:E.
  - destruct (isspace c) eqn:Ec; [done|]. simpl. by rewrite Ec.
  - change (rstrip (String c (String d r)))
      with (match rstrip (String d r) with
            | EmptyString => if isspace c then EmptyString else String c EmptyString
            | String a r' => String c (String a r')
            end).
    by rewrite IH.
Qed.

Lemma strip_stripped s : stripped (strip s).
Proof.
  unfold stripped, strip. split.
  - apply rstrip_head, lstrip_head.
  - apply rstrip_idemp.
Qed.

Lemma stripped_fixed s : stripped s → strip s = s.
Proof. intros [Hh Hr]. unfold strip. by rewrite lstrip_fixed. Qed.

(** ** Further properties of the analyzer *)

(** X8.  For a text that parses, no syntax error is reported twice and there
    are at most as many syntax errors as the text has lines. *)
Theorem syntax_errors_distinct_and_bounded ast_parse code tree :
  ast_parse code = Parsed tree →
  ∃ r, analyze (CodeAnalyzer := BasicPythonAnalyzer ast_parse) code = Returned r
       ∧ NoDup (syntax_errors r)
       ∧ length (syntax_errors r) ≤ length (split newline code).
Proof.
  intros H. eexists. split; [by apply analyze_parsed|]. cbn [syntax_errors].
  destruct (check_syntax_issues_lines code) as (ns & -> & Hsorted & Hin).
  apply StronglySorted_lt_NoDup in Hsorted as Hnd. split.
  - by apply (NoDup_fmap_2 line_issue).
  - rewrite length_fmap.
    transitivity (length (seq 1 (length (split newline code))));
      [|by rewrite length_seq].
    apply submseteq_length, NoDup_submseteq; [done|].
    intros n (Hn & line & Hl & _)%Hin. apply lookup_lt_Some in Hl.
    apply elem_of_seq. lia.
Qed.

Lemma syntax_errors_distinct_and_bounded_witness :
  sample_parse (strip sample_fibonacci) = Parsed fibonacci_tree
  ∧ ∃ r, analyze (CodeAnalyzer := BasicPythonAnalyzer sample_parse)
           (strip sample_fibonacci) = Returned r
         ∧ NoDup (syntax_errors r)
         ∧ length (syntax_errors r) ≤ length (split newline (strip sample_fibonacci)).
Proof.
  split; [reflexivity|].
  apply (syntax_errors_distinct_and_bounded sample_parse
           (strip sample_fibonacci) fibonacci_tree).
  reflexivity.
Defined.

(** X9.  For a text that parses, there are at most as many misconceptions as
    the tree has function definition nodes, so twice their number is at most
    the weighted count of the complexity score; a tree without such a node
    gets none. *)
Theorem misconceptions_bounded_by_functions ast_parse code tree :
  ast_parse code = Parsed tree →
  ∃ r, analyze (CodeAnalyzer := BasicPythonAnalyzer ast_parse) code = Returned r
       ∧ length (misconceptions r) ≤ count_nodes is_FunctionDef tree
       ∧ 2 * length (misconceptions r) ≤ weighted_count tree
       ∧ (count_nodes is_FunctionDef tree = 0 → misconceptions r = []).
Proof.
  intros H. eexists. split; [by apply analyze_parsed|]. cbn [misconceptions].
  rewrite detect_misconceptions_count, length_replicate.
  assert (length (filter lacks_return (nodes tree)) ≤ count_nodes is_FunctionDef tree)
    as Hle.
  { unfold count_nodes. apply filter_length_impl.
    intros n (name & -> & _). done. }
  split; [done|]. split; [unfold weighted_count; lia|].
  intros Hz. by replace (length (filter lacks_return (nodes tree))) with 0 by lia.
Qed.

Lemma misconceptions_bounded_by_functions_witness :
  sample_parse (strip sample_calculate_sum) = Parsed calculate_sum_tree
  ∧ ∃ r, analyze (CodeAnalyzer := BasicPythonAnalyzer sample_parse)
           (strip sample_calculate_sum) = Returned r
         ∧ length (misconceptions r) ≤ count_nodes is_FunctionDef calculate_sum_tree
         ∧ 2 * length (misconceptions r) ≤ weighted_count calculate_sum_tree
         ∧ (count_nodes is_FunctionDef calculate_sum_tree = 0 → misconceptions r = []).
Proof.
  split; [reflexivity|].
  apply (misconceptions_bounded_by_functions sample_parse
           (strip sample_calculate_sum) calculate_sum_tree).
  reflexivity.
Defined.

(** ** Further properties of the prompt generator *)

Lemma StronglySorted_sublist_of {A} (R : A → A → Prop) (l k : list A) :
  sublist l k → StronglySorted R k → StronglySorted R l.
Proof.
  induction 1 as [|x l k Hs IH|x l k Hs IH]; intros Hk; [done| |].
  - apply StronglySorted_inv in Hk as [Hk Hall]. constructor; [by apply IH|].
    rewrite Forall_forall in *. intros y Hy. apply Hall. by eapply elem_of_sublist.
  - apply StronglySorted_inv in Hk as [Hk _]. by apply IH.
Qed.

(** X10.  Whatever the analysis, the generator emits no prompt twice, at most
    four prompts, in non-decreasing difficulty; every prompt has one of the
    three documented categories and a difficulty within the documented range
    1 to 5. *)
Theorem prompts_ordered_and_in_range code a :
  ∃ prompts,
    generate_prompts (PromptGenerator := RuleBasedPromptGenerator) code a
      = Returned prompts
    ∧ NoDup prompts
    ∧ length prompts ≤ 4
    ∧ StronglySorted (λ p q, (difficulty_level p ≤ difficulty_level q)%Z) prompts
    ∧ ∀ p, p ∈ prompts →
        category p ∈ ["conceptual"; "debugging"; "extension"]
        ∧ (1 ≤ difficulty_level p ≤ 5)%Z.
Proof.
  eexists. split; [apply generate_prompts_when|].
  set (prompts := _ ++ _).
  assert (sublist prompts rule_table) as Hsub by apply when_sublist.
  split; [|split; [|split]].
  - eapply sublist_NoDup; [apply rule_table_NoDup | exact Hsub].
  - by apply sublist_length in Hsub.
  - eapply StronglySorted_sublist_of; [exact Hsub|].
    unfold rule_table. repeat constructor; simpl; lia.
  - intros p Hp. eapply elem_of_sublist in Hp; [|exact Hsub].
    unfold rule_table in Hp. rewrite !elem_of_cons, elem_of_nil in Hp.
    destruct Hp as [->|[->|[->|[->|[]]]]]; (split; [|simpl; lia]); simpl;
      rewrite !elem_of_cons; auto.
Qed.

Lemma prompts_ordered_and_in_range_witness :
  ∃ prompts,
    generate_prompts (PromptGenerator := RuleBasedPromptGenerator)
      "if x = 5:" flagged_analysis = Returned prompts
    ∧ NoDup prompts
    ∧ length prompts ≤ 4.
Proof.
  destruct (prompts_ordered_and_in_range "if x = 5:" flagged_analysis)
    as (prompts & Hp & Hnd & Hlen & _).
  exists prompts. split; [exact Hp|]. split; [exact Hnd | exact Hlen].
Defined.

(** ** Further properties of the evaluator *)

(** X11.  With any analyzer and any prompt generator, the evaluation raises
    exactly the exception of the analyzer or, once the analyzer has returned,
    the exception of the generator; a report it returns carries the text, the
    analysis of the analyzer and the prompts of the generator in their
    order. *)
Theorem evaluate_composes
    (analyzer : CodeAnalyzer) (prompt_generator : PromptGenerator) code :
  (∀ e, evaluate_student_code analyzer prompt_generator code = Raised e
        ↔ analyze code = Raised e
          ∨ ∃ a, analyze code = Returned a ∧ generate_prompts code a = Raised e)
  ∧ (∀ report,
       evaluate_student_code analyzer prompt_generator code = Returned report →
       ∃ a prompts,
         analyze code = Returned a
         ∧ generate_prompts code a = Returned prompts
         ∧ report_code report = code
         ∧ report_analysis report = a
         ∧ generated_prompts report = entry_of <$> prompts).
Proof.
  unfold evaluate_student_code.
  destruct (analyze code) as [a|e0] eqn:Ha; cbn [mbind exc_bind].
  - destruct (generate_prompts code a) as [prompts|e1] eqn:Hp;
      cbn [mbind exc_bind mret exc_ret].
    + split.
      * intros e. split; [done|]. intros [?|(a' & ? & ?)]; congruence.
      * intros report [= <-]. exists a, prompts. by destruct a.
    + split.
      * intros e. split.
        -- intros [= <-]. right. by exists a.
        -- intros [?|(a' & ? & ?)]; congruence.
      * intros report ?. congruence.
  - split.
    + intros e. split.
      * intros [= <-]. by left.
      * intros [?|(a' & ? & ?)]; congruence.
    + intros report ?. congruence.
Qed.

Lemma evaluate_composes_witness :
  ∃ a prompts,
    analyze (CodeAnalyzer := BasicPythonAnalyzer sample_parse)
      (strip sample_calculate_sum) = Returned a
    ∧ generate_prompts (PromptGenerator := RuleBasedPromptGenerator)
        (strip sample_calculate_sum) a = Returned prompts
    ∧ prompts = [return_prompt].
Proof.
  destruct (proj2 (evaluate_composes (BasicPythonAnalyzer sample_parse)
                     RuleBasedPromptGenerator (strip sample_calculate_sum))
              _ eq_refl)
    as (a & prompts & Ha & Hp & _).
  exists a, prompts. split; [exact Ha|]. split; [exact Hp|].
  vm_compute in Ha. injection Ha as <-. vm_compute in Hp. by injection Hp as <-.
Defined.

(** X12.  With the rule-based generator and any analyzer, the summary of a
    report counts at most four prompts; its average difficulty is 0 when
    there is no prompt and lies between 2 and 4 otherwise; its categories
    are among the three documented ones. *)
Theorem summary_bounds (analyzer : CodeAnalyzer) code report :
  evaluate_student_code analyzer RuleBasedPromptGenerator code = Returned report →
  total_prompts (summary report) ≤ 4
  ∧ ((total_prompts (summary report) = 0
      ∧ (avg_difficulty (summary report) == 0)%Q)
     ∨ (1 ≤ total_prompts (summary report)
        ∧ (2 <= avg_difficulty (summary report) <= 4)%Q))
  ∧ ∀ c, c ∈ categories (summary report) →
         c ∈ ["conceptual"; "debugging"; "extension"].
Proof.
  unfold evaluate_student_code.
  destruct (analyze code) as [a|e]; [|done]. cbn [mbind exc_bind].
  rewrite generate_prompts_when.
  generalize (truthy (syntax_errors a))
    (str_in "assignment in condition" (str_list (syntax_errors a)))
    (str_in "missing return statement" (str_list (misconceptions a)))
    (Qgtb (complexity_score a) 0.5).
  intros b1 b2 b3 b4. cbn [mbind exc_bind mret exc_ret].
  intros [= <-]. cbn [summary total_prompts avg_difficulty categories].
  pose proof (when_sublist b1 b2 b3 b4) as Hsub.
  split; [by apply sublist_length in Hsub|]. split.
  - destruct b1, b2, b3, b4;
      first [ left; split; reflexivity
            | right; split; [simpl; lia | split; vm_compute; discriminate] ].
  - intros c. rewrite elem_of_list_to_set.
    intros (p & -> & Hp)%list_elem_of_fmap.
    eapply elem_of_sublist in Hp; [|exact Hsub].
    unfold rule_table in Hp. rewrite !elem_of_cons, elem_of_nil in Hp.
    destruct Hp as [->|[->|[->|[->|[]]]]]; simpl; rewrite !elem_of_cons; auto.
Qed.

Lemma summary_bounds_witness :
  ∃ report,
    evaluate_student_code (BasicPythonAnalyzer sample_parse)
      RuleBasedPromptGenerator (strip sample_fibonacci) = Returned report
    ∧ total_prompts (summary report) ≤ 4.
Proof.
  eexists. split; [reflexivity|].
  apply (summary_bounds (BasicPythonAnalyzer sample_parse)
           (strip sample_fibonacci) _ eq_refl).
Defined.

(** X13.  For a text that parses, the evaluation returns a report, and the
    report has no prompt exactly when no line meets the condition of the
    syntax-issue heuristic, no function lacks a return statement and the
    weighted node count is at most 5; its summary then counts 0 prompts, has
    average difficulty 0 and no category. *)
Theorem report_without_prompts ast_parse code tree :
  ast_parse code = Parsed tree →
  ∃ report,
    evaluate_student_code (BasicPythonAnalyzer ast_parse)
      RuleBasedPromptGenerator code = Returned report
    ∧ (generated_prompts report = []
       ↔ ¬ has_flagged_line code
         ∧ ¬ has_function_without_return tree
         ∧ weighted_count tree ≤ 5)
    ∧ (generated_prompts report = [] →
       total_prompts (summary report) = 0
       ∧ (avg_difficulty (summary report) == 0)%Q
       ∧ categories (summary report) = ∅).
Proof.
  intros H. destruct (pipeline_prompts _ _ _ H) as (r & Hr & Hp).
  unfold evaluate_student_code. rewrite Hr. cbn [mbind exc_bind].
  rewrite Hp. cbn [mbind exc_bind mret exc_ret].
  eexists. split; [reflexivity|].
  cbn [generated_prompts summary total_prompts avg_difficulty categories].
  rewrite <- check_syntax_issues_truthy, <- (detect_misconceptions_phrase tree code).
  assert (weighted_count tree ≤ 5 ↔ Qgtb (_calculate_complexity tree) 0.5 ≠ true)
    as -> by (rewrite calculate_complexity_above_half; lia).
  generalize (truthy (_check_syntax_issues code))
    (str_in "missing return statement"
       (str_list (_detect_common_misconceptions tree code)))
    (Qgtb (_calculate_complexity tree) 0.5).
  intros b1 b3 b4. destruct b1, b3, b4; simpl; split;
    solve [ intuition congruence
          | intros _; repeat split; reflexivity ].
Qed.

Lemma report_without_prompts_witness :
  one_text_parse "x = 1" assignment_tree "x = 1" = Parsed assignment_tree
  ∧ ∃ report,
      evaluate_student_code (BasicPythonAnalyzer (one_text_parse "x = 1" assignment_tree))
        RuleBasedPromptGenerator "x = 1" = Returned report
      ∧ generated_prompts report = [].
Proof.
  split; [reflexivity|].
  destruct (report_without_prompts (one_text_parse "x = 1" assignment_tree)
              "x = 1" assignment_tree eq_refl)
    as (report & Hrep & _ & _).
  exists report. split; [exact Hrep|].
  vm_compute in Hrep. by injection Hrep as <-.
Defined.

(** ** The requirement list of [setup.py] *)

(** X14.  The requirements are exactly the stripped forms of the lines whose
    stripped form is not empty and that do not themselves begin with [#],
    in the order and number of those lines; so every such line of the file
    gives its requirement, also a comment line that begins with white space;
    and every requirement is non-empty with no white space at either end. *)
Theorem requirements_entries lines :
  requirements lines = strip <$> filter gives_requirement lines
  ∧ (∀ line, line ∈ lines → gives_requirement line →
             strip line ∈ requirements lines)
  ∧ (∀ r, r ∈ requirements lines → r ≠ EmptyString ∧ strip r = r).
Proof.
  assert (requirements lines = strip <$> filter gives_requirement lines) as Heq.
  { induction lines as [|line lines IH]; [done|].
    cbn [requirements]. rewrite filter_cons, IH.
    destruct (decide (gives_requirement line)) as [[Hne Hs]|Hno].
    - rewrite fmap_cons, Hs. by destruct (strip line).
    - destruct (strip line) eqn:Ht; [done|].
      destruct (startswith "#" line) eqn:Hs; [done|].
      exfalso. apply Hno. split; [by rewrite Ht | done]. }
  split; [done|]. rewrite Heq. split.
  - intros line Hin Hg. apply list_elem_of_fmap. exists line. split; [done|].
    by apply list_elem_of_filter.
  - intros r (line & -> & [[Hne _] _]%list_elem_of_filter)%list_elem_of_fmap.
    split; [done|]. apply stripped_fixed, strip_stripped.
Qed.

Lemma requirements_entries_witness :
  requirements
    [String "a" (String newline EmptyString); "# note"; "  # kept"; "   "; " b "]
    = ["a"; "# kept"; "b"]
  ∧ "# kept"
    ∈ requirements
        [String "a" (String newline EmptyString); "# note"; "  # kept"; "   "; " b "].
Proof.
  split; [reflexivity|].
  apply (proj1 (proj2 (requirements_entries
                         [String "a" (String newline EmptyString); "# note";
                          "  # kept"; "   "; " b "]))
           "  # kept").
  - apply elem_of_cons. right. apply elem_of_cons. right. apply elem_of_cons. by left.
  - split; [vm_compute; discriminate | reflexivity].
Defined.
